(** * entropy-pixel-array: the pixel statistics model of [notebook_code.py]

    The notebook defines a dataclass [InputParameters] holding a particle
    flux, a pixel area and a frame duration, and derives from them the mean
    number of hits, the pixel occupancy [1 - exp(-lambda)], its binary
    Shannon entropy and two entropy densities.  Three module-level loops
    sweep one field of a shared instance and collect the entropy rate, and
    the static methods of [PlotEntropyUtilities] draw what they collected.

    The code computes on IEEE-754 binary64 numbers (Python [float] and
    [numpy.float64]).  Every method is transcribed once, over an interface
    [Arith] that lists the operations the source applies to numbers, and the
    interface has two instances:

    - [Binary64]: Rocq's primitive binary64 floats, which is what runs;
    - [Exact]: the real numbers, which is what the formulas denote.

    Statements that do not depend on rounding are proved for every [Arith];
    statements about exact values (zero stays zero, saturation at one) are
    proved or refuted on [Binary64]; analytic statements (ranges,
    monotonicity, symmetry) are proved on [Exact]. *)

From Stdlib Require Import ZArith List Bool Reals Lra Floats.
From Stdlib Require String.
Import ListNotations.
Import String.StringSyntax.

Set Warnings "-inexact-float".

(** ** Python outcomes *)

(** The only exception a method of the model can raise: true division of a
    Python [float] by zero. *)
Inductive exception : Type :=
| ZeroDivisionError.

(** What evaluating a Python expression or statement produces. *)
Inductive outcome (A : Type) : Type :=
| Returned (a : A)
| Raised (e : exception).

Arguments Returned {A} a.
Arguments Raised {A} e.

Definition bind {A B : Type} (c : outcome A) (k : A -> outcome B) : outcome B :=
  match c with
  | Returned a => k a
  | Raised e => Raised e
  end.

Notation "x <- c ;; k" := (bind c (fun x => k))
  (at level 61, c at next level, right associativity).

Definition is_raised {A : Type} (c : outcome A) : bool :=
  match c with
  | Returned _ => false
  | Raised _ => true
  end.

(** ** The arithmetic the source relies on

    [fmul], [fsub], [fneg], [fdiv] and [feqb] are Python's [*], binary [-],
    unary [-], [/] (on a non-zero divisor) and [==] on floats; [np_exp] and
    [np_log2] are NumPy's; [fzero] and [fone] are the literals [0], [0.0]
    and [1]. *)
Class Arith : Type := {
  num : Type;
  fzero : num;
  fone : num;
  fmul : num -> num -> num;
  fsub : num -> num -> num;
  fneg : num -> num;
  fdiv : num -> num -> num;
  feqb : num -> num -> bool;
  np_exp : num -> num;
  np_log2 : num -> num
}.

Declare Scope py_scope.
Delimit Scope py_scope with py.
Notation "x * y" := (fmul x y) : py_scope.
Notation "x - y" := (fsub x y) : py_scope.
Notation "- x" := (fneg x) : py_scope.
Notation "x / y" := (fdiv x y) : py_scope.
Notation "x == y" := (feqb x y) (at level 70, no associativity) : py_scope.

(** A number as Python sees it at run time: a builtin [float] or a NumPy
    scalar.  The two divide differently by zero. *)
Inductive value {A : Arith} : Type :=
| PyFloat (x : num)
| NpFloat64 (x : num).

Definition payload {A : Arith} (v : value) : num :=
  match v with
  | PyFloat x => x
  | NpFloat64 x => x
  end.

Section Model.

Context {A : Arith}.
Local Open Scope py_scope.

(** [x / y] where [y] is a Python float read from a field: a Python float
    divided by zero raises, a NumPy scalar yields inf or nan with a
    warning. *)
Definition truediv (x : value) (y : num) : outcome value :=
  match x with
  | PyFloat a =>
      if y == fzero then Raised ZeroDivisionError
      else Returned (PyFloat (a / y))
  | NpFloat64 a => Returned (NpFloat64 (a / y))
  end.

(** *** [class InputParameters] (lines 5-41) *)

Record InputParameters : Type := {
  flux : num;
  pixel_area : num;
  frame_duration : num
}.

(** The [__init__] that [@dataclass] generates: three assignments, no
    [__post_init__]. *)
Definition __init__ (flux0 pixel_area0 frame_duration0 : num)
  : outcome InputParameters :=
  Returned {| flux := flux0;
              pixel_area := pixel_area0;
              frame_duration := frame_duration0 |}.

(** [self.flux = v] and its two siblings: plain attribute stores. *)
Definition set_flux (self : InputParameters) (v : num)
  : outcome InputParameters :=
  Returned {| flux := v;
              pixel_area := pixel_area self;
              frame_duration := frame_duration self |}.

Definition set_pixel_area (self : InputParameters) (v : num)
  : outcome InputParameters :=
  Returned {| flux := flux self;
              pixel_area := v;
              frame_duration := frame_duration self |}.

Definition set_frame_duration (self : InputParameters) (v : num)
  : outcome InputParameters :=
  Returned {| flux := flux self;
              pixel_area := pixel_area self;
              frame_duration := v |}.

(** Tuples compare element by element with [==]. *)
Fixpoint tuple_eqb (xs ys : list num) : bool :=
  match xs, ys with
  | [], [] => true
  | x :: xs', y :: ys' => (x == y) && tuple_eqb xs' ys'
  | _, _ => false
  end.

(** The [__eq__] that [@dataclass] generates when both operands are
    [InputParameters]: the tuples of fields are compared. *)
Definition __eq__ (self other : InputParameters) : bool :=
  tuple_eqb [flux self; pixel_area self; frame_duration self]
            [flux other; pixel_area other; frame_duration other].

Definition calculate_flux_area_product (self : InputParameters) : num :=
  flux self * pixel_area self.

Definition calculate_flux_area_frame_duration_product
    (self : InputParameters) : num :=
  flux self * pixel_area self * frame_duration self.

Definition calculate_pixel_occupancy (self : InputParameters) : num :=
  let lambda_pixel := calculate_flux_area_frame_duration_product self in
  fone - np_exp (- lambda_pixel).

(** Lines 31-33 of [calculate_pixel_entropy], as a function of the local
    variable [occupancy]. *)
Definition entropy_of_occupancy (occupancy : num) : value :=
  if (occupancy == fzero) || (occupancy == fone) then PyFloat fzero
  else NpFloat64 ((- occupancy) * np_log2 occupancy
                  - (fone - occupancy) * np_log2 (fone - occupancy)).

Definition calculate_pixel_entropy (self : InputParameters) : value :=
  let occupancy := calculate_pixel_occupancy self in
  entropy_of_occupancy occupancy.

Definition calculate_entropy_per_cm2 (self : InputParameters)
  : outcome value :=
  truediv (calculate_pixel_entropy self) (pixel_area self).

Definition calculate_entropy_per_cm2_per_s (self : InputParameters)
  : outcome value :=
  e <- calculate_entropy_per_cm2 self ;;
  truediv e (frame_duration self).

(** *** The derived-quantity methods as one family *)

Inductive method : Type :=
| flux_area_product
| flux_area_frame_duration_product
| pixel_occupancy
| pixel_entropy
| entropy_per_cm2
| entropy_per_cm2_per_s.

Definition call (m : method) (self : InputParameters) : outcome value :=
  match m with
  | flux_area_product =>
      Returned (PyFloat (calculate_flux_area_product self))
  | flux_area_frame_duration_product =>
      Returned (PyFloat (calculate_flux_area_frame_duration_product self))
  | pixel_occupancy =>
      Returned (NpFloat64 (calculate_pixel_occupancy self))
  | pixel_entropy => Returned (calculate_pixel_entropy self)
  | entropy_per_cm2 => calculate_entropy_per_cm2 self
  | entropy_per_cm2_per_s => calculate_entropy_per_cm2_per_s self
  end.

(** A field assignment, as the module-level code performs them. *)
Inductive assignment : Type :=
| AssignFlux (v : num)
| AssignPixelArea (v : num)
| AssignFrameDuration (v : num).

Definition assign (self : InputParameters) (a : assignment)
  : outcome InputParameters :=
  match a with
  | AssignFlux v => set_flux self v
  | AssignPixelArea v => set_pixel_area self v
  | AssignFrameDuration v => set_frame_duration self v
  end.

(** *** The sweep loops (lines 149-156, 175-182, 201-208)

    Each loop runs over a list of values with two pieces of state: the
    shared instance [inputParameters], updated in place, and the list of
    results, appended to. *)

Definition sweep_state : Type :=
  (InputParameters * list (num * value))%type.

Fixpoint for_each {X S : Type} (body : X -> S -> outcome S)
    (xs : list X) (st : S) : outcome S :=
  match xs with
  | [] => Returned st
  | x :: rest => st' <- body x st ;; for_each body rest st'
  end.

(** One iteration: store the value in the swept field, evaluate, append. *)
Definition sweep_body
    (store : InputParameters -> num -> outcome InputParameters)
    (v : num) (st : sweep_state) : outcome sweep_state :=
  let '(inputParameters, results) := st in
  inputParameters <- store inputParameters v ;;
  entropy_per_cm2_per_s <- calculate_entropy_per_cm2_per_s inputParameters ;;
  Returned (inputParameters, results ++ [(v, entropy_per_cm2_per_s)]).

Definition flux_sweep (inputParameters : InputParameters)
    (flux_values : list num) : outcome sweep_state :=
  for_each (sweep_body set_flux) flux_values (inputParameters, []).

Definition frame_duration_sweep (inputParameters : InputParameters)
    (frame_duration_values : list num) : outcome sweep_state :=
  for_each (sweep_body set_frame_duration) frame_duration_values
           (inputParameters, []).

Definition pixel_area_sweep (inputParameters : InputParameters)
    (pixel_area_values : list num) : outcome sweep_state :=
  for_each (sweep_body set_pixel_area) pixel_area_values
           (inputParameters, []).

(** *** Vocabulary for the statements below *)

(** The instance after a sequence of field assignments. *)
Definition mutate (self : InputParameters) (history : list assignment)
  : outcome InputParameters :=
  for_each (fun a s => assign s a) history self.

(** [results] pairs each value, in order, with the entropy rate of the
    instance [at_value] builds for it. *)
Definition sweep_pairs (at_value : num -> InputParameters)
    (values : list num) (results : list (num * value)) : Prop :=
  Forall2 (fun v r =>
             fst r = v /\
             calculate_entropy_per_cm2_per_s (at_value v) = Returned (snd r))
          values results.

Definition nonzero (x : num) : Prop := (x == fzero) = false.

End Model.

Arguments InputParameters A : clear implicits.
Arguments method : clear implicits.

(** ** The two arithmetics *)

(** *** Binary64: what the interpreter computes with

    Python's [float] operators are the IEEE-754 binary64 operations, which
    are the kernel's primitive floats.  [np.exp] and [np.log2] belong to
    NumPy and the platform's libm, not to this repository; they are modelled
    by the textbook algorithms below (argument reduction and a truncated
    series).  The statements made on this instance use them only where
    every IEEE-754 libm agrees: on the values C99 Annex F fixes
    ([exp(+-0) = 1], [exp(-inf) = 0], [log2(1) = 0], a power of two has an
    exact [log2]) and on orders of magnitude ([exp(-100) < 2^-54]). *)
Module Binary64.

Local Open Scope float_scope.

(** The integer an integer-valued finite float denotes. *)
Definition float_to_Z (x : float) : Z :=
  match Prim2SF x with
  | S754_finite s m e =>
      let v := if (0 <=? e)%Z then Z.shiftl (Zpos m) e
               else Z.shiftr (Zpos m) (- e) in
      if s then (- v)%Z else v
  | _ => 0%Z
  end.

Definition float_of_Z (z : Z) : float :=
  match z with
  | Z0 => 0
  | Zpos _ => of_uint63 (Uint63.of_Z z)
  | Zneg p => - of_uint63 (Uint63.of_Z (Zpos p))
  end.

Definition ln2_hi : float := 0x1.62e42feep-1.
Definition ln2_lo : float := 0x1.a39ef35793c76p-33.
Definition inv_ln2 : float := 0x1.71547652b82fep+0.
Definition sqrt_half : float := 0x1.6a09e667f3bcdp-1.
Definition round_magic : float := 0x1.8p52.
Definition exp_overflow : float := 0x1.62e42fefa39efp+9.
Definition exp_underflow : float := -0x1.74910d52d3051p+9.

(** [1 + r/1 (1 + r/2 (... (1 + r/n)))], the Taylor polynomial of [exp]. *)
Fixpoint exp_series (r : float) (n : nat) (acc : float) : float :=
  match n with
  | O => acc
  | S k => exp_series r k (1 + r * acc / float_of_Z (Z.of_nat n))
  end.

(** [exp x = 2^k * exp r] with [x = k ln 2 + r] and [|r| <= ln 2 / 2]. *)
Definition exp (x : float) : float :=
  if is_nan x then nan
  else if exp_overflow <? x then infinity
  else if x <? exp_underflow then 0
  else
    let kf := (x * inv_ln2 + round_magic) - round_magic in
    let r := (x - kf * ln2_hi) - kf * ln2_lo in
    Z.ldexp (exp_series r 14 1) (float_to_Z kf).

(** [1 + z/3 + z^2/5 + ...], so that [atanh s = s * atanh_series (s*s)]. *)
Fixpoint atanh_series (z : float) (n : nat) (acc : float) : float :=
  match n with
  | O => acc
  | S k => atanh_series z k (1 / float_of_Z (2 * Z.of_nat k + 1) + z * acc)
  end.

(** [log2 x = e + log2 m] with [x = m 2^e] and [m] in [sqrt 1/2, sqrt 2). *)
Definition log2 (x : float) : float :=
  if is_nan x then nan
  else if x <? 0 then nan
  else if x =? 0 then neg_infinity
  else if is_infinity x then infinity
  else
    let (m, e) := Z.frexp x in
    let (m, e) := if m <? sqrt_half then (2 * m, (e - 1)%Z) else (m, e) in
    let f := m - 1 in
    let s := f / (2 + f) in
    float_of_Z e + (2 * s * atanh_series (s * s) 12 0) * inv_ln2.

#[export] Instance arith : Arith := {|
  num := float;
  fzero := 0;
  fone := 1;
  fmul := PrimFloat.mul;
  fsub := PrimFloat.sub;
  fneg := PrimFloat.opp;
  fdiv := PrimFloat.div;
  feqb := PrimFloat.eqb;
  np_exp := exp;
  np_log2 := log2
|}.

(** The invariant of the data model, on floats: real-valued (finite)
    fields with [flux >= 0], [pixel_area > 0], [frame_duration > 0]. *)
Definition valid (self : InputParameters arith) : bool :=
  is_finite (flux self) && is_finite (pixel_area self)
  && is_finite (frame_duration self)
  && (0 <=? flux self) && (0 <? pixel_area self)
  && (0 <? frame_duration self).

End Binary64.

(** *** Exact: the real numbers

    Division by zero and the logarithm of a non-positive number have no
    meaning here; every statement made on this instance stays inside the
    domain where they are not evaluated. *)
Module Exact.

Local Open Scope R_scope.

Definition Reqb (x y : R) : bool :=
  if Req_dec_T x y then true else false.

Definition log2 (x : R) : R := ln x / ln 2.

#[export] Instance arith : Arith := {|
  num := R;
  fzero := 0;
  fone := 1;
  fmul := Rmult;
  fsub := Rminus;
  fneg := Ropp;
  fdiv := Rdiv;
  feqb := Reqb;
  np_exp := Rtrigo_def.exp;
  np_log2 := log2
|}.

(** The invariant of the data model. *)
Definition valid (self : InputParameters arith) : Prop :=
  0 <= flux self /\ 0 < pixel_area self /\ 0 < frame_duration self.

(** The expression of line 33 read on the reals: the binary entropy. *)
Definition binary_entropy (p : R) : R :=
  - p * log2 p - (1 - p) * log2 (1 - p).

End Exact.

(** ** [class PlotEntropyUtilities] (lines 44-107)

    The three static methods unpack their argument with [zip( *results )]
    and then only talk to matplotlib, whose answers they never read: a
    method is modelled by the sequence of [plt] calls it issues, with their
    arguments. *)
Section Plotting.

Context {A : Arith}.
Local Open Scope string_scope.

Inductive plt_call : Type :=
| plt_figure (figsize : Z * Z)
| plt_plot (xs : list num) (ys : list value)
           (marker linestyle color label : String.string)
| plt_xlabel (text : String.string)
| plt_ylabel (text : String.string)
| plt_title (text : String.string)
| plt_xscale (scale : String.string)
| plt_yscale (scale : String.string)
| plt_ylim (bottom : Z) (top : float)
| plt_grid (visible : bool) (which linestyle : String.string)
           (linewidth : float)
| plt_legend
| plt_show.

(** What a plotting method does: it shows a figure, or the unpacking of
    its first line raises [ValueError] before anything is drawn. *)
Inductive plot_outcome : Type :=
| Shown (calls : list plt_call)
| ValueError.

(** [xs, ys = zip( *results )] on a list of pairs: [zip] of no argument
    yields nothing and the two names cannot be bound; otherwise it yields
    the tuple of first components and the tuple of second components. *)
Definition zip_star (results : list (num * value))
  : option (list num * list value) :=
  match results with
  | [] => None
  | _ :: _ => Some (map fst results, map snd results)
  end.

Definition plot_entropy_vs_flux (entropy_results : list (num * value))
  : plot_outcome :=
  match zip_star entropy_results with
  | None => ValueError
  | Some (flux_values, entropy_values) =>
      Shown [ plt_figure (8, 6)%Z;
              plt_plot flux_values entropy_values
                       "o" "-" "b" "Entropy per cm² per second";
              plt_xlabel "Flux [cm⁻²·s⁻¹]";
              plt_ylabel "Entropy per cm² per second [bit/s/cm²]";
              plt_title "Entropy as a Function of Flux";
              plt_xscale "log";
              plt_yscale "log";
              plt_grid true "both" "--" 0.5%float;
              plt_legend;
              plt_show ]
  end.

Definition plot_entropy_vs_frame_duration
    (entropy_vs_duration_results : list (num * value)) : plot_outcome :=
  match zip_star entropy_vs_duration_results with
  | None => ValueError
  | Some (frame_duration_values, entropy_values) =>
      Shown [ plt_figure (8, 6)%Z;
              plt_plot frame_duration_values entropy_values
                       "o" "-" "g" "Entropy per cm² per second";
              plt_xlabel "Frame Duration [s]";
              plt_ylabel "Entropy per cm² per second [bit/s/cm²]";
              plt_title "Entropy as a Function of Frame Duration";
              plt_xscale "log";
              plt_ylim 0%Z 2e9%float;
              plt_grid true "both" "--" 0.5%float;
              plt_legend;
              plt_show ]
  end.

Definition plot_entropy_vs_pixel_area
    (entropy_vs_pixel_area_results : list (num * value)) : plot_outcome :=
  match zip_star entropy_vs_pixel_area_results with
  | None => ValueError
  | Some (pixel_area_values, entropy_values) =>
      Shown [ plt_figure (8, 6)%Z;
              plt_plot pixel_area_values entropy_values
                       "o" "-" "r" "Entropy per cm² per second";
              plt_xlabel "Pixel Area [cm²]";
              plt_ylabel "Entropy per cm² per second [bit/s/cm²]";
              plt_title "Entropy as a Function of Pixel Area";
              plt_xscale "log";
              plt_ylim 0%Z 2e9%float;
              plt_grid true "both" "--" 0.5%float;
              plt_legend;
              plt_show ]
  end.

(** The data a figure was drawn from: the two sequences handed to
    [plt.plot]. *)
Fixpoint plotted (calls : list plt_call)
  : list (list num * list value) :=
  match calls with
  | [] => []
  | plt_plot xs ys _ _ _ _ :: rest => (xs, ys) :: plotted rest
  | _ :: rest => plotted rest
  end.

End Plotting.

(** Either zero of binary64: the floats that compare equal to [0]. *)
Definition signed_zero (x : float) : Prop :=
  x = 0%float \/ x = neg_zero.

(** ** Vocabulary for the sweeps *)
Section SweepVocabulary.

Context {A : Arith}.

(** The instance the three stores leave, as pure updates of the record. *)
Definition with_flux (self : InputParameters A) (v : num)
  : InputParameters A :=
  {| flux := v;
     pixel_area := pixel_area self;
     frame_duration := frame_duration self |}.

Definition with_frame_duration (self : InputParameters A) (v : num)
  : InputParameters A :=
  {| flux := flux self;
     pixel_area := pixel_area self;
     frame_duration := v |}.

Definition with_pixel_area (self : InputParameters A) (v : num)
  : InputParameters A :=
  {| flux := flux self;
     pixel_area := v;
     frame_duration := frame_duration self |}.

(** A store/update pair a sweep can run on: the store always succeeds and
    a later store of the same field overrides an earlier one. *)
Definition overriding_store
    (store : InputParameters A -> num -> outcome (InputParameters A))
    (upd : InputParameters A -> num -> InputParameters A) : Prop :=
  (forall s v, store s v = Returned (upd s v))
  /\ (forall s v w, upd (upd s v) w = upd s w).

(** The three studies of the notebook (lines 139-159, 165-185, 191-211):
    the loop, the update its store performs, and the plot its results go
    to. *)
Definition studies
  : list ((InputParameters A -> list num -> outcome sweep_state)
          * (InputParameters A -> num -> InputParameters A)
          * (list (num * value) -> plot_outcome)) :=
  [ (flux_sweep, with_flux, plot_entropy_vs_flux);
    (frame_duration_sweep, with_frame_duration,
     plot_entropy_vs_frame_duration);
    (pixel_area_sweep, with_pixel_area, plot_entropy_vs_pixel_area) ].

End SweepVocabulary.

(** * Properties *)

(** ** Statements that hold in every arithmetic *)

Section Generic.

Context {A : Arith}.
Local Open Scope py_scope.

Implicit Types self base : InputParameters A.

Lemma bind_returned {X Y : Type} (c : outcome X) (k : X -> outcome Y) y :
  bind c k = Returned y -> exists x, c = Returned x /\ k x = Returned y.
Proof.
  destruct c as [x|e]; simpl; intros H; [eauto | discriminate].
Qed.

Lemma truediv_nonzero (x : value) (y : num) :
  nonzero y -> exists r, truediv x y = Returned r.
Proof.
  unfold nonzero, truediv. intros Hy.
  destruct x as [a|a]; [rewrite Hy|]; eauto.
Qed.

Lemma rate_returns self :
  nonzero (pixel_area self) -> nonzero (frame_duration self) ->
  exists r, calculate_entropy_per_cm2_per_s self = Returned r.
Proof.
  intros Ha Hd. unfold calculate_entropy_per_cm2_per_s, calculate_entropy_per_cm2.
  destruct (truediv_nonzero (calculate_pixel_entropy self) _ Ha) as [e He].
  rewrite He. simpl. now apply truediv_nonzero.
Qed.

(** The loop invariant of a sweep: whatever has been collected so far is
    kept, and one pair is appended per remaining value. *)
Lemma sweep_loop
    (store : InputParameters A -> num -> outcome (InputParameters A))
    (upd : InputParameters A -> num -> InputParameters A)
    (Hstore : forall s v, store s v = Returned (upd s v))
    (Hupd : forall s v w, upd (upd s v) w = upd s w)
    (values : list num) :
  forall base current collected,
    (forall v, In v values ->
               exists r, calculate_entropy_per_cm2_per_s (upd base v) = Returned r) ->
    (forall v, upd current v = upd base v) ->
    exists results,
      for_each (sweep_body store) values (current, collected)
      = Returned (fold_left upd values current, collected ++ results)
      /\ sweep_pairs (upd base) values results.
Proof.
  induction values as [|v rest IH]; intros base current collected Hret Hcur.
  - exists []. simpl. rewrite app_nil_r. split; [reflexivity | constructor].
  - destruct (Hret v (or_introl Logic.eq_refl)) as [r Hr].
    destruct (IH base (upd current v) (collected ++ [(v, r)])) as [results [Hrun Hpairs]].
    + intros w Hw. apply Hret. now right.
    + intros w. rewrite Hupd. apply Hcur.
    + exists ((v, r) :: results). split.
      * rewrite <- Hcur in Hr.
        simpl. rewrite Hstore. simpl. rewrite Hr. simpl.
        rewrite Hrun, <- app_assoc. reflexivity.
      * constructor; [split; [reflexivity | exact Hr] | exact Hpairs].
Qed.

Lemma sweep_pairs_values at_value values results :
  sweep_pairs at_value values results -> map fst results = values.
Proof.
  induction 1 as [|v r vs rs [Hv _] _ IH]; simpl; [reflexivity|].
  now rewrite Hv, IH.
Qed.

Lemma sweep_pairs_ext (f g : num -> InputParameters A) values results :
  (forall v, f v = g v) ->
  sweep_pairs f values results -> sweep_pairs g values results.
Proof.
  intros E. induction 1 as [|v r vs rs [Hv Hr] _ IH]; constructor.
  - split; [exact Hv | now rewrite <- E].
  - exact IH.
Qed.

Lemma fold_left_preserves {X : Type} (P : InputParameters A -> Prop)
    (upd : InputParameters A -> X -> InputParameters A) (xs : list X) :
  (forall s x, P s -> P (upd s x)) ->
  forall s, P s -> P (fold_left upd xs s).
Proof.
  intros Hstep. induction xs as [|x rest IH]; intros s Hs; simpl.
  - exact Hs.
  - apply IH. now apply Hstep.
Qed.

Lemma Forall_nonzero_in (values : list num) v :
  Forall nonzero values -> In v values -> nonzero v.
Proof.
  intros Hall Hin. rewrite Forall_forall in Hall. now apply Hall.
Qed.

Lemma mutate_returns self (history : list assignment) :
  exists final, mutate self history = Returned final.
Proof.
  revert self. induction history as [|a rest IH]; intros self.
  - exists self. reflexivity.
  - unfold mutate in *. destruct a; simpl; apply IH.
Qed.

Lemma tuple_eqb_fields (a b c a' b' c' : num) :
  tuple_eqb [a; b; c] [a'; b'; c'] = true
  <-> (a == a') = true /\ (b == b') = true /\ (c == c') = true.
Proof.
  simpl. rewrite !andb_true_iff. intuition.
Qed.

End Generic.

(** ** Statements in exact arithmetic *)

Section ExactFacts.

Import Exact.
Local Open Scope R_scope.

Implicit Types self other : InputParameters Exact.arith.

Lemma Reqb_true (x y : R) : Reqb x y = true <-> x = y.
Proof.
  unfold Reqb. destruct (Req_dec_T x y); split; congruence.
Qed.

Lemma Reqb_false (x y : R) : Reqb x y = false <-> x <> y.
Proof.
  unfold Reqb. destruct (Req_dec_T x y); split; congruence.
Qed.

Lemma occupancy_exact self :
  calculate_pixel_occupancy self
  = 1 - exp (- (flux self * pixel_area self * frame_duration self)).
Proof. reflexivity. Qed.

Lemma mean_hits_nonneg self :
  valid self -> 0 <= calculate_flux_area_frame_duration_product self.
Proof.
  intros (Hf & Ha & Hd). unfold calculate_flux_area_frame_duration_product. simpl.
  apply Rmult_le_pos; [apply Rmult_le_pos|]; lra.
Qed.

Lemma exp_le_compat (x y : R) : x <= y -> exp x <= exp y.
Proof.
  intros [H | ->]; [left; now apply exp_increasing | right; reflexivity].
Qed.

Lemma occupancy_of_mean_range (lambda : R) :
  0 <= lambda -> 0 <= 1 - exp (- lambda) < 1.
Proof.
  intros H. pose proof (exp_pos (- lambda)) as Hpos.
  assert (Hle : exp (- lambda) <= exp 0) by (apply exp_le_compat; lra).
  rewrite exp_0 in Hle. lra.
Qed.

(** Larger fields give a larger mean number of hits, hence a larger
    occupancy. *)
Lemma occupancy_monotone_jointly self other :
  valid self -> valid other ->
  flux self <= flux other ->
  pixel_area self <= pixel_area other ->
  frame_duration self <= frame_duration other ->
  calculate_pixel_occupancy self <= calculate_pixel_occupancy other.
Proof.
  intros (Hf & Ha & Hd) (Hf' & Ha' & Hd') Lf La Ld.
  rewrite !occupancy_exact.
  assert (H1 : flux self * pixel_area self <= flux other * pixel_area other)
    by (apply Rmult_le_compat; lra).
  assert (H0 : 0 <= flux self * pixel_area self)
    by (apply Rmult_le_pos; lra).
  assert (H2 : flux self * pixel_area self * frame_duration self
               <= flux other * pixel_area other * frame_duration other)
    by (apply Rmult_le_compat; lra).
  assert (H3 : exp (- (flux other * pixel_area other * frame_duration other))
               <= exp (- (flux self * pixel_area self * frame_duration self)))
    by (apply exp_le_compat; lra).
  lra.
Qed.

(** *** The binary entropy function *)

Lemma entropy_of_occupancy_interior (p : R) :
  0 < p < 1 -> entropy_of_occupancy p = NpFloat64 (binary_entropy p).
Proof.
  intros [H0 H1]. unfold entropy_of_occupancy. simpl.
  assert (E0 : Reqb p 0 = false) by (apply Reqb_false; lra).
  assert (E1 : Reqb p 1 = false) by (apply Reqb_false; lra).
  rewrite E0, E1. reflexivity.
Qed.

Lemma ln_2_pos : 0 < ln 2.
Proof. pose proof ln_lt_2. lra. Qed.

Lemma ln_neg (x : R) : 0 < x < 1 -> ln x < 0.
Proof.
  intros [H0 H1]. rewrite <- ln_1. now apply ln_increasing.
Qed.

Lemma ln_le_minus_1 (y : R) : 0 < y -> ln y <= y - 1.
Proof.
  intros Hy. pose proof (exp_ineq1_le (ln y)) as Hl.
  rewrite exp_ln in Hl by assumption. lra.
Qed.

(** [x ln (1/(2x)) <= 1/2 - x]: the tangent bound that bounds the entropy by one. *)
Lemma half_bound (x : R) : 0 < x -> - x * ln 2 - x * ln x <= / 2 - x.
Proof.
  intros Hx.
  assert (Hy : 0 < / (2 * x)) by (apply Rinv_0_lt_compat; lra).
  pose proof (ln_le_minus_1 _ Hy) as Hl.
  rewrite ln_Rinv, ln_mult in Hl by lra.
  assert (Hm : x * (- (ln 2 + ln x)) <= x * (/ (2 * x) - 1))
    by (apply Rmult_le_compat_l; lra).
  replace (x * (/ (2 * x) - 1)) with (/ 2 - x) in Hm by (field; lra).
  lra.
Qed.

Lemma binary_entropy_pos (p : R) : 0 < p < 1 -> 0 < binary_entropy p.
Proof.
  intros [H0 H1]. unfold binary_entropy, log2.
  pose proof ln_2_pos as H2.
  assert (Hp : ln p < 0) by (apply ln_neg; lra).
  assert (Hq : ln (1 - p) < 0) by (apply ln_neg; lra).
  assert (Ha : 0 < - p * (ln p / ln 2)).
  { replace (- p * (ln p / ln 2)) with (p * (- ln p) * / ln 2) by (field; lra).
    apply Rmult_lt_0_compat; [apply Rmult_lt_0_compat; lra|].
    now apply Rinv_0_lt_compat. }
  assert (Hb : 0 < - ((1 - p) * (ln (1 - p) / ln 2))).
  { replace (- ((1 - p) * (ln (1 - p) / ln 2)))
      with ((1 - p) * (- ln (1 - p)) * / ln 2) by (field; lra).
    apply Rmult_lt_0_compat; [apply Rmult_lt_0_compat; lra|].
    now apply Rinv_0_lt_compat. }
  lra.
Qed.

Lemma binary_entropy_le_1 (p : R) : 0 < p < 1 -> binary_entropy p <= 1.
Proof.
  intros [H0 H1]. unfold binary_entropy, log2.
  pose proof ln_2_pos as H2.
  pose proof (half_bound p H0) as Bp.
  assert (Hq : 0 < 1 - p) by lra.
  pose proof (half_bound (1 - p) Hq) as Bq.
  replace (- p * (ln p / ln 2) - (1 - p) * (ln (1 - p) / ln 2))
    with ((- p * ln p - (1 - p) * ln (1 - p)) * / ln 2) by (field; lra).
  apply Rmult_le_reg_r with (ln 2); [assumption|].
  rewrite Rmult_assoc, Rinv_l by lra. lra.
Qed.

Lemma binary_entropy_half : binary_entropy (/ 2) = 1.
Proof.
  unfold binary_entropy, log2. pose proof ln_2_pos as H2.
  replace (1 - / 2) with (/ 2) by lra.
  rewrite ln_Rinv by lra. field. lra.
Qed.

Lemma entropy_of_occupancy_sym (p : R) :
  entropy_of_occupancy p = entropy_of_occupancy (1 - p).
Proof.
  unfold entropy_of_occupancy. simpl.
  destruct (Req_dec_T p 0) as [-> | N0].
  - replace (1 - 0) with 1 by lra.
    assert (E : Reqb 1 1 = true) by now apply Reqb_true.
    assert (E' : Reqb 0 0 = true) by now apply Reqb_true.
    rewrite E, E'. simpl. now rewrite orb_true_r.
  - destruct (Req_dec_T p 1) as [-> | N1].
    + replace (1 - 1) with 0 by lra.
      assert (E : Reqb 1 1 = true) by now apply Reqb_true.
      assert (E' : Reqb 0 0 = true) by now apply Reqb_true.
      rewrite E, E'. simpl. now rewrite orb_true_r.
    + assert (E0 : Reqb p 0 = false) by now apply Reqb_false.
      assert (E1 : Reqb p 1 = false) by now apply Reqb_false.
      assert (F0 : Reqb (1 - p) 0 = false) by (apply Reqb_false; lra).
      assert (F1 : Reqb (1 - p) 1 = false) by (apply Reqb_false; lra).
      rewrite E0, E1, F0, F1. simpl. f_equal.
      replace (1 - (1 - p)) with p by lra. lra.
Qed.

End ExactFacts.

(** ** Statements on binary64 *)

Section Binary64Facts.

Import Binary64.
Local Open Scope float_scope.

Implicit Types self : InputParameters Binary64.arith.

(** A finite float above zero is a positive mantissa and an exponent. *)
Lemma positive_finite (a : float) :
  is_finite a = true -> (0 <? a) = true ->
  exists m e, Prim2SF a = S754_finite false m e.
Proof.
  unfold is_finite, is_nan, is_infinity.
  rewrite ltb_spec, !eqb_spec, abs_spec.
  destruct (Prim2SF a) as [s | s | | s m e]; simpl.
  - discriminate.
  - destruct s; discriminate.
  - discriminate.
  - destruct s; [discriminate | eauto].
Qed.

Lemma Prim2SF_inj (x y : float) : Prim2SF x = Prim2SF y -> x = y.
Proof.
  intros E. rewrite <- (SF2Prim_Prim2SF x), <- (SF2Prim_Prim2SF y).
  now rewrite E.
Qed.

Lemma mul_zero_positive (a : float) :
  is_finite a = true -> (0 <? a) = true -> 0 * a = 0.
Proof.
  intros Hf Hp. destruct (positive_finite a Hf Hp) as (m & e & Ha).
  apply Prim2SF_inj. rewrite mul_spec, Ha. reflexivity.
Qed.

Lemma div_zero_positive (a : float) :
  is_finite a = true -> (0 <? a) = true -> 0 / a = 0.
Proof.
  intros Hf Hp. destruct (positive_finite a Hf Hp) as (m & e & Ha).
  apply Prim2SF_inj. rewrite div_spec, Ha. reflexivity.
Qed.

Lemma positive_not_zero (a : float) :
  is_finite a = true -> (0 <? a) = true -> (a =? 0) = false.
Proof.
  intros Hf Hp. destruct (positive_finite a Hf Hp) as (m & e & Ha).
  rewrite eqb_spec, Ha. reflexivity.
Qed.

(** [==] identifies the two zeros and nothing else with zero. *)
Lemma eqb_zero_cases (f : float) :
  (f =? 0) = true -> f = 0 \/ f = neg_zero.
Proof.
  rewrite eqb_spec. intros E.
  rewrite <- (SF2Prim_Prim2SF f).
  destruct (Prim2SF f) as [s | s | | s m e]; simpl in E.
  - destruct s; [right | left]; reflexivity.
  - destruct s; discriminate.
  - discriminate.
  - destruct s; discriminate.
Qed.

Lemma mul_neg_zero_positive (a : float) :
  is_finite a = true -> (0 <? a) = true -> neg_zero * a = neg_zero.
Proof.
  intros Hf Hp. destruct (positive_finite a Hf Hp) as (m & e & Ha).
  apply Prim2SF_inj. rewrite mul_spec, Ha. reflexivity.
Qed.

(** [exp] of either zero is exactly one. *)
Lemma exp_neg_zero : exp (- 0) = 1.
Proof. vm_compute. reflexivity. Qed.

Lemma exp_pos_zero : exp (- neg_zero) = 1.
Proof. vm_compute. reflexivity. Qed.

Lemma valid_fields self :
  valid self = true ->
  (is_finite (pixel_area self) = true /\ (0 <? pixel_area self) = true)
  /\ (is_finite (frame_duration self) = true
      /\ (0 <? frame_duration self) = true).
Proof.
  unfold valid. rewrite !andb_true_iff. tauto.
Qed.

(** With a zero flux and valid area and duration, the mean number of hits
    is a zero and the occupancy is [+0.0]. *)
Lemma zero_flux_occupancy self :
  valid self = true -> (flux self =? 0) = true ->
  (calculate_flux_area_frame_duration_product self =? 0) = true
  /\ calculate_pixel_occupancy self = 0.
Proof.
  intros Hv Hz. destruct (valid_fields self Hv) as [[Fa Pa] [Fd Pd]].
  destruct self as [f a d].
  change (flux _) with f in Hz.
  change (pixel_area _) with a in Fa, Pa.
  change (frame_duration _) with d in Fd, Pd.
  change (calculate_flux_area_frame_duration_product _) with (f * a * d).
  change (calculate_pixel_occupancy _) with (1 - exp (- (f * a * d))).
  destruct (eqb_zero_cases f Hz) as [-> | ->].
  - rewrite !mul_zero_positive by assumption.
    rewrite exp_neg_zero. split; reflexivity.
  - rewrite !mul_neg_zero_positive by assumption.
    rewrite exp_pos_zero. split; reflexivity.
Qed.

Lemma truediv_zero_positive (a : float) :
  is_finite a = true -> (0 <? a) = true ->
  truediv (A := arith) (PyFloat 0) a = Returned (PyFloat 0).
Proof.
  intros Hf Hp. unfold truediv.
  change (@feqb arith a (@fzero arith)) with (a =? 0).
  rewrite positive_not_zero by assumption.
  change (@fdiv arith 0 a) with (0 / a).
  now rewrite div_zero_positive.
Qed.

(** The notebook's first evaluation (lines 116-132): about [1e-5] hits per
    frame and an entropy rate of about [1.8e9] bits per square centimetre
    and second. *)
Example first_run_of_the_notebook :
  let self := @Build_InputParameters arith 1e8 1e-6 1e-7 in
  (0.99e-5 <? calculate_flux_area_frame_duration_product self) = true
  /\ (calculate_flux_area_frame_duration_product self <? 1.01e-5) = true
  /\ (0.99e-5 <? calculate_pixel_occupancy self) = true
  /\ (calculate_pixel_occupancy self <? 1e-5) = true
  /\ exists r, calculate_entropy_per_cm2_per_s self = Returned (NpFloat64 r)
               /\ (1.80e9 <? r) = true /\ (r <? 1.81e9) = true.
Proof.
  intros self.
  split; [vm_compute; reflexivity|].
  split; [vm_compute; reflexivity|].
  split; [vm_compute; reflexivity|].
  split; [vm_compute; reflexivity|].
  exists (payload (calculate_pixel_entropy self) / 1e-6 / 1e-7).
  split; [reflexivity|].
  split; vm_compute; reflexivity.
Qed.

(** A zero pixel area is stored like any other value; with it the
    occupancy is zero, the guard returns the Python float [0.0], and the
    division raises.  A sweep that meets it stops there. *)
Example zero_pixel_area_raises :
  calculate_entropy_per_cm2_per_s (@Build_InputParameters arith 1e8 0 1e-7)
  = Raised ZeroDivisionError
  /\ pixel_area_sweep (@Build_InputParameters arith 1e8 1e-6 1e-7) [2e-6; 0]
     = Raised ZeroDivisionError.
Proof. split; reflexivity. Qed.

End Binary64Facts.

(** * The claims *)

Section Claims.

Local Open Scope py_scope.

(** C1, as the code has it.  [@dataclass] generates a constructor that
    only stores its arguments and the class defines no [__post_init__],
    no property and no [__setattr__]: for every three numbers the
    constructor returns an instance holding exactly them, every field
    assignment returns the instance with that field replaced, and no
    sequence of assignments ever raises.  Validity is checked nowhere. *)
Theorem construction_and_mutation_are_unchecked (A : Arith) :
  (forall f a d : num,
      __init__ f a d
      = Returned {| flux := f; pixel_area := a; frame_duration := d |})
  /\ (forall (self : InputParameters A) (v : num),
         assign self (AssignFlux v)
         = Returned {| flux := v;
                       pixel_area := pixel_area self;
                       frame_duration := frame_duration self |}
         /\ assign self (AssignPixelArea v)
            = Returned {| flux := flux self;
                          pixel_area := v;
                          frame_duration := frame_duration self |}
         /\ assign self (AssignFrameDuration v)
            = Returned {| flux := flux self;
                          pixel_area := pixel_area self;
                          frame_duration := v |})
  /\ (forall (self : InputParameters A) (history : list assignment),
         is_raised (mutate self history) = false).
Proof.
  split; [reflexivity|]. split; [intros; repeat split|].
  intros self history. revert self.
  induction history as [|a rest IH]; intros self; [reflexivity|].
  unfold mutate in *. destruct a; simpl; apply IH.
Qed.

(** C1 fails at [flux = -1]: the constructor returns an instance, nothing
    is raised, and the occupancy is then computed from it (a negative
    number, whose entropy is not a number). *)
Lemma negative_flux_is_accepted :
  __init__ (A := Binary64.arith) (-1)%float 1e-6%float 1e-7%float
  = Returned (@Build_InputParameters Binary64.arith
                (-1)%float 1e-6%float 1e-7%float)
  /\ is_raised (__init__ (A := Binary64.arith)
                  (-1)%float 1e-6%float 1e-7%float) = false
  /\ PrimFloat.ltb
       (calculate_pixel_occupancy
          (@Build_InputParameters Binary64.arith
             (-1)%float 1e-6%float 1e-7%float)) 0%float = true
  /\ is_raised (set_flux (@Build_InputParameters Binary64.arith
                            1e8%float 1e-6%float 1e-7%float) (-1)%float)
     = false.
Proof. repeat split. Qed.

(** C2.  The occupancy is [1 - exp(-lambda)], where [lambda], the mean
    number of hits per frame, is [flux * pixel_area * frame_duration], and
    the mean number of hits per second is [flux * pixel_area]; on the
    reals this is the closed form [1 - exp(-(flux pixel_area
    frame_duration))]. *)
Theorem occupancy_is_one_minus_exp :
  (forall (A : Arith) (self : InputParameters A),
      calculate_flux_area_product self = flux self * pixel_area self
      /\ calculate_flux_area_frame_duration_product self
         = flux self * pixel_area self * frame_duration self
      /\ calculate_pixel_occupancy self
         = fone - np_exp (- calculate_flux_area_frame_duration_product self))
  /\ (forall self : InputParameters Exact.arith,
         calculate_pixel_occupancy self
         = (1 - Rtrigo_def.exp
                  (- (flux self * pixel_area self * frame_duration self)))%R).
Proof. split; intros; repeat split. Qed.

(** C3.  The entropy is exactly [0.0] when the occupancy compares equal
    to 0 or to 1, and in every other case it is the value of
    [-p log2 p - (1-p) log2 (1-p)], with no tolerance around the two
    guards; for an occupancy strictly between 0 and 1 that value is
    positive and at most 1 bit, which it reaches at one half.  In
    binary64 the occupancy [1e-300] goes through the formula and yields a
    positive entropy, and one half yields exactly [1.0]. *)
Theorem entropy_guards_and_range :
  (forall (A : Arith) (self : InputParameters A),
      ((calculate_pixel_occupancy self == fzero) = true
       \/ (calculate_pixel_occupancy self == fone) = true ->
       calculate_pixel_entropy self = PyFloat fzero)
      /\ ((calculate_pixel_occupancy self == fzero) = false ->
          (calculate_pixel_occupancy self == fone) = false ->
          let p := calculate_pixel_occupancy self in
          calculate_pixel_entropy self
          = NpFloat64 ((- p) * np_log2 p - (fone - p) * np_log2 (fone - p))))
  /\ (forall self : InputParameters Exact.arith,
         (0 < calculate_pixel_occupancy self < 1)%R ->
         exists h : R,
           calculate_pixel_entropy self = NpFloat64 (A := Exact.arith) h
           /\ (0 < h <= 1)%R)
  /\ (forall self : InputParameters Exact.arith,
         calculate_pixel_occupancy self = (/ 2)%R ->
         calculate_pixel_entropy self = NpFloat64 (A := Exact.arith) 1%R)
  /\ (exists h : float,
         entropy_of_occupancy (A := Binary64.arith) 1e-300%float
         = NpFloat64 (A := Binary64.arith) h
         /\ PrimFloat.ltb 0%float h = true)
  /\ entropy_of_occupancy (A := Binary64.arith) 0.5%float
     = NpFloat64 (A := Binary64.arith) 1%float.
Proof.
  split; [|split; [|split; [|split]]].
  - intros A self. unfold calculate_pixel_entropy, entropy_of_occupancy.
    split.
    + intros [E | E]; rewrite E; [reflexivity | now rewrite orb_true_r].
    + intros E0 E1. simpl. now rewrite E0, E1.
  - intros self Hp. unfold calculate_pixel_entropy.
    rewrite entropy_of_occupancy_interior by exact Hp.
    eexists. split; [reflexivity|].
    split; [now apply binary_entropy_pos | now apply binary_entropy_le_1].
  - intros self Hp. unfold calculate_pixel_entropy. rewrite Hp.
    rewrite entropy_of_occupancy_interior by lra.
    now rewrite binary_entropy_half.
  - exists (payload (entropy_of_occupancy (A := Binary64.arith) 1e-300%float)).
    split; reflexivity.
  - reflexivity.
Qed.

Lemma entropy_guards_and_range_witness :
  exists h : R,
    calculate_pixel_entropy
      (@Build_InputParameters Exact.arith (ln 2) 1%R 1%R)
    = NpFloat64 (A := Exact.arith) h
    /\ (0 < h <= 1)%R.
Proof.
  destruct entropy_guards_and_range as (_ & Hrange & _).
  apply Hrange. rewrite occupancy_exact. simpl.
  replace (ln 2 * 1 * 1)%R with (ln 2) by ring.
  rewrite exp_Ropp, exp_ln by lra. lra.
Defined.

(** C4, in exact arithmetic.  For every parameter set with [flux >= 0],
    [pixel_area > 0] and [frame_duration > 0], the occupancy read on the
    real numbers lies in the half-open interval [0, 1). *)
Theorem occupancy_range_exact (self : InputParameters Exact.arith) :
  Exact.valid self ->
  (0 <= calculate_pixel_occupancy self < 1)%R.
Proof.
  intros Hv. rewrite occupancy_exact.
  apply occupancy_of_mean_range.
  exact (mean_hits_nonneg self Hv).
Qed.

Lemma occupancy_range_exact_witness :
  (0 <= calculate_pixel_occupancy
          (@Build_InputParameters Exact.arith
             100000000%R (/ 1000000)%R 1%R) < 1)%R.
Proof.
  apply occupancy_range_exact. unfold Exact.valid. simpl. lra.
Defined.

(** C4 fails in binary64 at [flux = 1e8], [pixel_area = 1e-6],
    [frame_duration = 1]: the parameter set is valid, the mean number of
    hits is 100, [exp(-100)] is below half an ulp of one, and the
    occupancy is exactly [1.0]. *)
Lemma occupancy_saturates_at_one :
  Binary64.valid
    (@Build_InputParameters Binary64.arith 1e8%float 1e-6%float 1%float)
  = true
  /\ calculate_flux_area_frame_duration_product
       (@Build_InputParameters Binary64.arith 1e8%float 1e-6%float 1%float)
     = 100%float
  /\ calculate_pixel_occupancy
       (@Build_InputParameters Binary64.arith 1e8%float 1e-6%float 1%float)
     = 1%float.
Proof. repeat split. Qed.



(** C6.  With a zero flux and any valid positive pixel area and frame
    duration the whole chain is exactly zero: the mean number of hits per
    frame, the occupancy, the entropy and the entropy rate density.  This
    holds on the real numbers and, bit for bit, on binary64 (where a valid
    field is a finite one, and the mean is a zero of the sign of the
    flux). *)
Theorem zero_flux_gives_zero_chain :
  (forall self : InputParameters Exact.arith,
      Exact.valid self -> flux self = 0%R ->
      calculate_flux_area_frame_duration_product self = 0%R
      /\ calculate_pixel_occupancy self = 0%R
      /\ calculate_pixel_entropy self = PyFloat (A := Exact.arith) 0%R
      /\ calculate_entropy_per_cm2_per_s self
         = Returned (PyFloat (A := Exact.arith) 0%R))
  /\ (forall self : InputParameters Binary64.arith,
         Binary64.valid self = true ->
         PrimFloat.eqb (flux self) 0%float = true ->
         PrimFloat.eqb (calculate_flux_area_frame_duration_product self)
                       0%float = true
         /\ calculate_pixel_occupancy self = 0%float
         /\ calculate_pixel_entropy self
            = PyFloat (A := Binary64.arith) 0%float
         /\ calculate_entropy_per_cm2_per_s self
            = Returned (PyFloat (A := Binary64.arith) 0%float)).
Proof.
  split.
  - intros self (Hf & Ha & Hd) Hz.
    assert (Hl : calculate_flux_area_frame_duration_product self = 0%R).
    { unfold calculate_flux_area_frame_duration_product. simpl.
      rewrite Hz. ring. }
    assert (Hp : calculate_pixel_occupancy self = 0%R).
    { unfold calculate_pixel_occupancy. rewrite Hl. simpl.
      rewrite Ropp_0, exp_0. ring. }
    assert (He : calculate_pixel_entropy self
                 = PyFloat (A := Exact.arith) 0%R).
    { unfold calculate_pixel_entropy, entropy_of_occupancy. rewrite Hp.
      simpl. assert (E : Exact.Reqb 0 0 = true) by now apply Reqb_true.
      now rewrite E. }
    repeat split; try assumption.
    unfold calculate_entropy_per_cm2_per_s, calculate_entropy_per_cm2.
    rewrite He. unfold truediv. simpl.
    assert (Ea : Exact.Reqb (pixel_area self) 0 = false)
      by (apply Reqb_false; lra).
    assert (Ed : Exact.Reqb (frame_duration self) 0 = false)
      by (apply Reqb_false; lra).
    rewrite Ea. simpl. rewrite Ed.
    do 2 f_equal. field. lra.
  - intros self Hv Hz.
    destruct (zero_flux_occupancy self Hv Hz) as [Hl Hp].
    destruct (valid_fields self Hv) as [[Fa Pa] [Fd Pd]].
    assert (He : calculate_pixel_entropy self
                 = PyFloat (A := Binary64.arith) 0%float).
    { unfold calculate_pixel_entropy. rewrite Hp. reflexivity. }
    repeat split; try assumption.
    unfold calculate_entropy_per_cm2_per_s, calculate_entropy_per_cm2.
    rewrite He.
    rewrite (truediv_zero_positive _ Fa Pa). unfold bind.
    exact (truediv_zero_positive _ Fd Pd).
Qed.

Lemma zero_flux_gives_zero_chain_witness :
  calculate_pixel_occupancy
    (@Build_InputParameters Binary64.arith 0%float 1e-6%float 1e-7%float)
  = 0%float
  /\ calculate_entropy_per_cm2_per_s
       (@Build_InputParameters Binary64.arith 0%float 1e-6%float 1e-7%float)
     = Returned (PyFloat (A := Binary64.arith) 0%float).
Proof.
  destruct zero_flux_gives_zero_chain as [_ Hfloat].
  destruct (Hfloat
              (@Build_InputParameters Binary64.arith
                 0%float 1e-6%float 1e-7%float))
    as (_ & Hp & _ & Hr); [reflexivity | reflexivity |].
  split; [exact Hp | exact Hr].
Defined.




(** C8.  A sweep over an ordered list of values for one field, run from
    a base instance whose divisors (pixel area and frame duration, the
    swept values included) are not zero, returns exactly one pair per
    value, in the order of the list; the first component is the value,
    the second is the entropy rate density evaluated directly on the
    parameter set with that value and the base values of the two other
    fields; and the shared instance ends with the two other fields
    untouched. *)
Theorem sweep_yields_one_pair_per_value
    (A : Arith) (base : InputParameters A) (values : list num) :
  (nonzero (pixel_area base) -> nonzero (frame_duration base) ->
   exists final results,
     flux_sweep base values = Returned (final, results)
     /\ map fst results = values
     /\ sweep_pairs
          (fun v => {| flux := v;
                       pixel_area := pixel_area base;
                       frame_duration := frame_duration base |})
          values results
     /\ pixel_area final = pixel_area base
     /\ frame_duration final = frame_duration base)
  /\ (nonzero (pixel_area base) -> Forall nonzero values ->
      exists final results,
        frame_duration_sweep base values = Returned (final, results)
        /\ map fst results = values
        /\ sweep_pairs
             (fun v => {| flux := flux base;
                          pixel_area := pixel_area base;
                          frame_duration := v |})
             values results
        /\ flux final = flux base
        /\ pixel_area final = pixel_area base)
  /\ (nonzero (frame_duration base) -> Forall nonzero values ->
      exists final results,
        pixel_area_sweep base values = Returned (final, results)
        /\ map fst results = values
        /\ sweep_pairs
             (fun v => {| flux := flux base;
                          pixel_area := v;
                          frame_duration := frame_duration base |})
             values results
        /\ flux final = flux base
        /\ frame_duration final = frame_duration base).
Proof.
  split; [|split].
  - intros Ha Hd.
    pose (upd := fun (s : InputParameters A) (v : num) =>
                   {| flux := v;
                      pixel_area := pixel_area s;
                      frame_duration := frame_duration s |}).
    destruct (sweep_loop set_flux upd (fun _ _ => Logic.eq_refl)
                (fun _ _ _ => Logic.eq_refl) values base base [])
      as [results [Hrun Hpairs]].
    + intros v _. now apply rate_returns.
    + reflexivity.
    + exists (fold_left upd values base), results.
      split; [exact Hrun|]. split; [now apply sweep_pairs_values in Hpairs|].
      split; [exact Hpairs|]. split.
      * apply (fold_left_preserves
                 (fun s => pixel_area s = pixel_area base)); auto.
      * apply (fold_left_preserves
                 (fun s => frame_duration s = frame_duration base)); auto.
  - intros Ha Hvals.
    pose (upd := fun (s : InputParameters A) (v : num) =>
                   {| flux := flux s;
                      pixel_area := pixel_area s;
                      frame_duration := v |}).
    destruct (sweep_loop set_frame_duration upd (fun _ _ => Logic.eq_refl)
                (fun _ _ _ => Logic.eq_refl) values base base [])
      as [results [Hrun Hpairs]].
    + intros v Hv. apply rate_returns; [exact Ha|].
      exact (Forall_nonzero_in values v Hvals Hv).
    + reflexivity.
    + exists (fold_left upd values base), results.
      split; [exact Hrun|]. split; [now apply sweep_pairs_values in Hpairs|].
      split; [exact Hpairs|]. split.
      * apply (fold_left_preserves (fun s => flux s = flux base)); auto.
      * apply (fold_left_preserves
                 (fun s => pixel_area s = pixel_area base)); auto.
  - intros Hd Hvals.
    pose (upd := fun (s : InputParameters A) (v : num) =>
                   {| flux := flux s;
                      pixel_area := v;
                      frame_duration := frame_duration s |}).
    destruct (sweep_loop set_pixel_area upd (fun _ _ => Logic.eq_refl)
                (fun _ _ _ => Logic.eq_refl) values base base [])
      as [results [Hrun Hpairs]].
    + intros v Hv. apply rate_returns; [|exact Hd].
      exact (Forall_nonzero_in values v Hvals Hv).
    + reflexivity.
    + exists (fold_left upd values base), results.
      split; [exact Hrun|]. split; [now apply sweep_pairs_values in Hpairs|].
      split; [exact Hpairs|]. split.
      * apply (fold_left_preserves (fun s => flux s = flux base)); auto.
      * apply (fold_left_preserves
                 (fun s => frame_duration s = frame_duration base)); auto.
Qed.

(** Scenario 5 of the specification: three flux values, three pairs. *)
Lemma sweep_yields_one_pair_per_value_witness :
  exists final results,
    flux_sweep
      (@Build_InputParameters Binary64.arith 1e8%float 1e-6%float 1e-7%float)
      [1e6%float; 1e7%float; 1e8%float]
    = Returned (final, results)
    /\ map fst results = [1e6%float; 1e7%float; 1e8%float].
Proof.
  destruct (sweep_yields_one_pair_per_value Binary64.arith
              (@Build_InputParameters Binary64.arith
                 1e8%float 1e-6%float 1e-7%float)
              [1e6%float; 1e7%float; 1e8%float]) as [Hflux _].
  destruct Hflux as (final & results & Hrun & Hmap & _);
    [reflexivity | reflexivity |].
  exists final, results. split; [exact Hrun | exact Hmap].
Defined.



End Claims.

(** * Further properties of the code *)

(** ** When the entropy densities raise *)

Section Raising.

Context {A : Arith}.
Local Open Scope py_scope.

Implicit Types self : InputParameters A.

(** The guard of line 31, as a test on the instance. *)
Lemma entropy_is_python_float self :
  (calculate_pixel_occupancy self == fzero)
  || (calculate_pixel_occupancy self == fone) = true ->
  calculate_pixel_entropy self = PyFloat fzero.
Proof.
  intros G. unfold calculate_pixel_entropy, entropy_of_occupancy.
  now rewrite G.
Qed.

Lemma entropy_is_numpy_scalar self :
  (calculate_pixel_occupancy self == fzero)
  || (calculate_pixel_occupancy self == fone) = false ->
  exists h, calculate_pixel_entropy self = NpFloat64 h.
Proof.
  intros G. unfold calculate_pixel_entropy, entropy_of_occupancy.
  rewrite G. eauto.
Qed.

(** X1.  [calculate_entropy_per_cm2] raises [ZeroDivisionError] exactly
    when the occupancy compares equal to 0 or to 1 (so that the entropy is
    the Python float [0.0]) and the pixel area compares equal to zero; in
    every other case it returns a number. *)
Theorem entropy_per_cm2_raises_iff self :
  calculate_entropy_per_cm2 self = Raised ZeroDivisionError
  <-> (calculate_pixel_occupancy self == fzero)
      || (calculate_pixel_occupancy self == fone) = true
      /\ (pixel_area self == fzero) = true.
Proof.
  unfold calculate_entropy_per_cm2.
  destruct ((calculate_pixel_occupancy self == fzero)
            || (calculate_pixel_occupancy self == fone)) eqn:G.
  - rewrite (entropy_is_python_float self G). unfold truediv.
    destruct (pixel_area self == fzero); split;
      solve [auto | discriminate | intros [_ H]; discriminate H].
  - destruct (entropy_is_numpy_scalar self G) as [h ->]. simpl.
    split; [discriminate | intros [H _]; discriminate H].
Qed.

(** X2.  [calculate_entropy_per_cm2_per_s] raises [ZeroDivisionError]
    exactly when the occupancy compares equal to 0 or to 1 and the pixel
    area or the frame duration compares equal to zero; otherwise it
    returns, a Python float in the guarded case and a NumPy scalar in the
    other. *)
Theorem entropy_per_cm2_per_s_raises_iff self :
  (calculate_entropy_per_cm2_per_s self = Raised ZeroDivisionError
   <-> (calculate_pixel_occupancy self == fzero)
       || (calculate_pixel_occupancy self == fone) = true
       /\ ((pixel_area self == fzero) = true
           \/ (frame_duration self == fzero) = true))
  /\ ((calculate_pixel_occupancy self == fzero)
      || (calculate_pixel_occupancy self == fone) = false ->
      exists h,
        calculate_pixel_entropy self = NpFloat64 h
        /\ calculate_entropy_per_cm2_per_s self
           = Returned
               (NpFloat64 (h / pixel_area self / frame_duration self))).
Proof.
  unfold calculate_entropy_per_cm2_per_s, calculate_entropy_per_cm2.
  destruct ((calculate_pixel_occupancy self == fzero)
            || (calculate_pixel_occupancy self == fone)) eqn:G.
  - split; [|discriminate].
    rewrite (entropy_is_python_float self G). unfold truediv.
    destruct (pixel_area self == fzero) eqn:Ea; simpl.
    + split; auto.
    + destruct (frame_duration self == fzero) eqn:Ed; split;
        solve [auto | discriminate
              | intros [_ [H | H]]; discriminate H].
  - destruct (entropy_is_numpy_scalar self G) as [h Hh]. rewrite Hh. simpl.
    split.
    + split; [discriminate | intros [H _]; discriminate H].
    + intros _. exists h. split; reflexivity.
Qed.

End Raising.

(** ** The sweeps and the plots they feed *)

Section Sweeps.

Context {A : Arith}.
Local Open Scope py_scope.

Implicit Types base self : InputParameters A.

Lemma set_flux_overriding : overriding_store set_flux with_flux.
Proof. split; reflexivity. Qed.

Lemma set_frame_duration_overriding :
  overriding_store set_frame_duration with_frame_duration.
Proof. split; reflexivity. Qed.

Lemma set_pixel_area_overriding :
  overriding_store set_pixel_area with_pixel_area.
Proof. split; reflexivity. Qed.

Section OneSweep.

Variable store : InputParameters A -> num -> outcome (InputParameters A).
Variable upd : InputParameters A -> num -> InputParameters A.
Hypothesis Hov : overriding_store store upd.

(** What a run that returned must have done. *)
Lemma sweep_run_inv (values : list num) :
  forall base current collected final results,
    (forall v, upd current v = upd base v) ->
    for_each (sweep_body store) values (current, collected)
    = Returned (final, results) ->
    final = fold_left upd values current
    /\ exists rs, results = collected ++ rs
                  /\ sweep_pairs (upd base) values rs.
Proof.
  destruct Hov as [Hstore Hupd].
  induction values as [|v rest IH];
    intros base current collected final results Hcur Hrun.
  - simpl in Hrun. injection Hrun as <- <-. split; [reflexivity|].
    exists []. rewrite app_nil_r. split; [reflexivity | constructor].
  - simpl in Hrun. rewrite Hstore in Hrun. simpl in Hrun.
    apply bind_returned in Hrun. destruct Hrun as [st' [Hbody Hrest]].
    apply bind_returned in Hbody. destruct Hbody as [r [Hr Hst']].
    injection Hst' as <-.
    destruct (IH base (upd current v) (collected ++ [(v, r)]) final results)
      as [Hfinal [rs [Hres Hpairs]]].
    + intros w. rewrite Hupd. apply Hcur.
    + exact Hrest.
    + split; [exact Hfinal|].
      exists ((v, r) :: rs). split.
      * rewrite Hres, <- app_assoc. reflexivity.
      * constructor; [|exact Hpairs].
        split; [reflexivity|]. rewrite <- Hcur. exact Hr.
Qed.

(** A run raises exactly when the evaluation at one of the values does. *)
Lemma sweep_raises (values : list num) :
  forall base current collected,
    (forall v, upd current v = upd base v) ->
    is_raised (for_each (sweep_body store) values (current, collected)) = true
    <-> exists v, In v values
                  /\ is_raised (calculate_entropy_per_cm2_per_s (upd base v))
                     = true.
Proof.
  destruct Hov as [Hstore Hupd].
  induction values as [|v rest IH]; intros base current collected Hcur.
  - simpl. split; [discriminate | intros [v [[] _]]].
  - simpl. rewrite Hstore. simpl.
    destruct (calculate_entropy_per_cm2_per_s (upd current v)) as [r|e] eqn:Hr;
      simpl; rewrite Hcur in Hr.
    + rewrite (IH base (upd current v) (collected ++ [(v, r)])).
      * split; intros [w [Hin Hw]].
        -- exists w. split; [now right | exact Hw].
        -- destruct Hin as [<- | Hin].
           ++ rewrite Hr in Hw. discriminate Hw.
           ++ exists w. split; assumption.
      * intros w. rewrite Hupd. apply Hcur.
    + split; [|reflexivity]. intros _. exists v.
      split; [now left | now rewrite Hr].
Qed.

End OneSweep.

Lemma sweep_pairs_functional (f : num -> InputParameters A) values rs rs' :
  sweep_pairs f values rs -> sweep_pairs f values rs' -> rs = rs'.
Proof.
  intros H. revert rs'.
  induction H as [|v r vs rs [Hv Hr] _ IH]; intros rs' H'.
  - inversion H'. reflexivity.
  - inversion H' as [|v' r' vs' rs'' [Hv' Hr'] Hrest]; subst.
    f_equal; [|now apply IH].
    destruct r as [x y], r' as [x' y']. simpl in *.
    rewrite Hr in Hr'. injection Hr' as ->. now subst.
Qed.

Lemma sweep_pairs_app (f : num -> InputParameters A) xs ys rs rs' :
  sweep_pairs f xs rs -> sweep_pairs f ys rs' ->
  sweep_pairs f (xs ++ ys) (rs ++ rs').
Proof. apply Forall2_app. Qed.

Lemma sweep_pairs_returns (f : num -> InputParameters A) values rs v :
  sweep_pairs f values rs -> In v values ->
  exists r, calculate_entropy_per_cm2_per_s (f v) = Returned r.
Proof.
  induction 1 as [|w r vs rs' [Hw Hr] _ IH]; intros Hin; [destruct Hin|].
  destruct Hin as [<- | Hin]; [eauto | now apply IH].
Qed.

Lemma last_cons {X : Type} (x d : X) (l : list X) :
  last (x :: l) d = last l x.
Proof.
  revert x d. induction l as [|y l IH]; intros x d; [reflexivity|].
  change (last (x :: y :: l) d) with (last (y :: l) d).
  now rewrite (IH y d), (IH y x).
Qed.

Lemma fold_left_last {X : Type} (get : InputParameters A -> X)
    (upd : InputParameters A -> X -> InputParameters A)
    (Hget : forall s v, get (upd s v) = v) (values : list X) :
  forall s, get (fold_left upd values s) = last values (get s).
Proof.
  induction values as [|v rest IH]; intros s; [reflexivity|].
  simpl fold_left. rewrite IH, Hget, last_cons. reflexivity.
Qed.

Lemma fold_left_override
    (upd : InputParameters A -> num -> InputParameters A)
    (Hupd : forall s v w, upd (upd s v) w = upd s w) (values : list num) :
  forall s d, values <> [] -> fold_left upd values s = upd s (last values d).
Proof.
  induction values as [|v rest IH]; intros s d Hne; [contradiction|].
  simpl fold_left. destruct rest as [|w rest'].
  - reflexivity.
  - rewrite (IH (upd s v) d) by discriminate. rewrite Hupd.
    reflexivity.
Qed.

(** Each study runs the one loop body on a store that overrides. *)
Lemma study_inv sweep upd plot :
  In (sweep, upd, plot) studies ->
  exists store,
    overriding_store store upd
    /\ (forall base values,
           sweep base values
           = for_each (sweep_body store) values (base, []))
    /\ (forall results, plot results = ValueError <-> results = [])
    /\ (forall results calls,
           plot results = Shown calls ->
           plotted calls = [(map fst results, map snd results)]).
Proof.
  assert (Hz : forall results : list (num * value),
             zip_star results = None <-> results = []).
  { intros [|r rs]; simpl; split; intros H; try reflexivity; discriminate. }
  intros [E | [E | [E | []]]]; injection E as <- <- <-.
  - exists set_flux. split; [exact set_flux_overriding|].
    split; [reflexivity|]. split.
    + intros results. unfold plot_entropy_vs_flux. rewrite <- Hz.
      destruct (zip_star results) as [[xs ys]|];
        split; intros H; try reflexivity; discriminate.
    + intros [|r rs] calls; unfold plot_entropy_vs_flux; simpl;
        intros H; [discriminate | injection H as <-; reflexivity].
  - exists set_frame_duration. split; [exact set_frame_duration_overriding|].
    split; [reflexivity|]. split.
    + intros results. unfold plot_entropy_vs_frame_duration. rewrite <- Hz.
      destruct (zip_star results) as [[xs ys]|];
        split; intros H; try reflexivity; discriminate.
    + intros [|r rs] calls; unfold plot_entropy_vs_frame_duration; simpl;
        intros H; [discriminate | injection H as <-; reflexivity].
  - exists set_pixel_area. split; [exact set_pixel_area_overriding|].
    split; [reflexivity|]. split.
    + intros results. unfold plot_entropy_vs_pixel_area. rewrite <- Hz.
      destruct (zip_star results) as [[xs ys]|];
        split; intros H; try reflexivity; discriminate.
    + intros [|r rs] calls; unfold plot_entropy_vs_pixel_area; simpl;
        intros H; [discriminate | injection H as <-; reflexivity].
Qed.

(** X3.  A sweep raises exactly when the entropy rate raises at one of the
    swept values, taken with the base values of the two other fields: an
    exception is never swallowed and never invented. *)
Theorem sweep_raises_iff_a_value_raises sweep upd plot base values :
  In (sweep, upd, plot) studies ->
  is_raised (sweep base values) = true
  <-> exists v, In v values
                /\ is_raised (calculate_entropy_per_cm2_per_s (upd base v))
                   = true.
Proof.
  intros Hin. destruct (study_inv _ _ _ Hin) as (store & Hov & Hrun & _).
  rewrite Hrun. now apply (sweep_raises store upd Hov).
Qed.

(** X4.  Sweeps do not couple their iterations through the shared
    instance: if the sweeps over two lists return, the sweep over their
    concatenation returns the concatenation of their results. *)
Theorem sweep_of_concatenation sweep upd plot base xs ys f1 r1 f2 r2 :
  In (sweep, upd, plot) studies ->
  sweep base xs = Returned (f1, r1) ->
  sweep base ys = Returned (f2, r2) ->
  exists final, sweep base (xs ++ ys) = Returned (final, r1 ++ r2).
Proof.
  intros Hin H1 H2.
  destruct (study_inv _ _ _ Hin) as (store & Hov & Hrun & _).
  rewrite Hrun in *.
  destruct (sweep_run_inv store upd Hov xs base base [] f1 r1
              (fun _ => Logic.eq_refl) H1) as [_ [rs1 [E1 P1]]].
  destruct (sweep_run_inv store upd Hov ys base base [] f2 r2
              (fun _ => Logic.eq_refl) H2) as [_ [rs2 [E2 P2]]].
  simpl in E1, E2. subst r1 r2.
  destruct Hov as [Hstore Hupd].
  destruct (sweep_loop store upd Hstore Hupd (xs ++ ys) base base [])
    as [results [Hrun' Hpairs]].
  - intros v Hv. apply in_app_or in Hv. destruct Hv as [Hv | Hv].
    + exact (sweep_pairs_returns _ _ _ _ P1 Hv).
    + exact (sweep_pairs_returns _ _ _ _ P2 Hv).
  - reflexivity.
  - exists (fold_left upd (xs ++ ys) base). rewrite Hrun'. simpl.
    do 2 f_equal.
    exact (sweep_pairs_functional _ _ _ _ Hpairs (sweep_pairs_app _ _ _ _ _ P1 P2)).
Qed.

(** X5.  A sweep that returns leaves the shared instance as the base with
    the swept field set to the last value of the list; over an empty list
    it leaves the base untouched and returns no pair. *)
Theorem sweep_leaves_last_value sweep upd plot base values final results :
  In (sweep, upd, plot) studies ->
  sweep base values = Returned (final, results) ->
  (values = [] -> final = base /\ results = [])
  /\ (forall d, values <> [] -> final = upd base (last values d)).
Proof.
  intros Hin H.
  destruct (study_inv _ _ _ Hin) as (store & Hov & Hrun & _).
  rewrite Hrun in H.
  destruct (sweep_run_inv store upd Hov values base base [] final results
              (fun _ => Logic.eq_refl) H) as [Hfinal [rs [Hres Hpairs]]].
  split.
  - intros ->. simpl in Hfinal. inversion Hpairs. subst. split; reflexivity.
  - intros d Hne. rewrite Hfinal.
    destruct Hov as [_ Hupd]. now apply fold_left_override.
Qed.

(** X6.  The outcome of a sweep over a non-empty list does not depend on
    the value the swept field had before: starting from the base or from
    the base with that field replaced gives the same results, the same
    final instance and the same exception. *)
Theorem sweep_forgets_initial_value sweep upd plot base w values :
  In (sweep, upd, plot) studies ->
  values <> [] ->
  sweep (upd base w) values = sweep base values.
Proof.
  intros Hin Hne.
  destruct (study_inv _ _ _ Hin) as (store & [Hstore Hupd] & Hrun & _).
  rewrite !Hrun. destruct values as [|v rest]; [contradiction|].
  simpl. rewrite !Hstore. simpl. now rewrite Hupd.
Qed.

(** X7.  A plotting method raises [ValueError], before drawing anything,
    exactly when it is handed an empty list of results. *)
Theorem plot_raises_iff_no_results sweep upd plot results :
  In (sweep, upd, plot) studies ->
  plot results = ValueError <-> results = [].
Proof.
  intros Hin. destruct (study_inv _ _ _ Hin) as (_ & _ & _ & Hplot & _).
  apply Hplot.
Qed.

(** X8.  In each study, if the sweep over a non-empty list returns, the
    plot of its results is shown, and the one curve it draws has the swept
    values, in order, as abscissae and as many ordinates. *)
Theorem study_plots_the_swept_values
    sweep upd plot base values final results :
  In (sweep, upd, plot) studies ->
  values <> [] ->
  sweep base values = Returned (final, results) ->
  exists calls,
    plot results = Shown calls
    /\ plotted calls = [(values, map snd results)]
    /\ length (map snd results) = length values.
Proof.
  intros Hin Hne H.
  destruct (study_inv _ _ _ Hin) as (store & Hov & Hrun & Hempty & Hshown).
  rewrite Hrun in H.
  destruct (sweep_run_inv store upd Hov values base base [] final results
              (fun _ => Logic.eq_refl) H) as [_ [rs [Hres Hpairs]]].
  simpl in Hres. subst rs.
  pose proof (sweep_pairs_values _ _ _ Hpairs) as Hfst.
  destruct (plot results) as [calls|] eqn:Hp.
  - exists calls. split; [reflexivity|].
    split.
    + rewrite (Hshown results calls Hp), Hfst. reflexivity.
    + rewrite <- Hfst. now rewrite !length_map.
  - apply Hempty in Hp. subst results. simpl in Hfst.
    now symmetry in Hfst.
Qed.

End Sweeps.

(** ** Further statements in exact arithmetic *)

Section ExactFurther.

Import Exact.
Local Open Scope R_scope.

Implicit Types self other : InputParameters Exact.arith.

Lemma occupancy_interior self :
  valid self -> 0 < flux self -> 0 < calculate_pixel_occupancy self < 1.
Proof.
  intros (Hf & Ha & Hd) Hpos. rewrite occupancy_exact.
  assert (Hl : 0 < flux self * pixel_area self * frame_duration self)
    by (apply Rmult_lt_0_compat; [apply Rmult_lt_0_compat|]; lra).
  pose proof (exp_pos (- (flux self * pixel_area self * frame_duration self)))
    as Hp.
  assert (Hlt : exp (- (flux self * pixel_area self * frame_duration self))
                < exp 0) by (apply exp_increasing; lra).
  rewrite exp_0 in Hlt. lra.
Qed.

(** Away from one half the tangent bound is strict. *)
Lemma half_bound_strict (x : R) :
  0 < x -> x <> / 2 -> - x * ln 2 - x * ln x < / 2 - x.
Proof.
  intros Hx Hne.
  assert (Hy : 0 < / (2 * x)) by (apply Rinv_0_lt_compat; lra).
  assert (Hy1 : / (2 * x) <> 1).
  { intros E. apply Hne. apply (f_equal (fun t => t * x)) in E.
    replace (/ (2 * x) * x) with (/ 2) in E by (field; lra). lra. }
  assert (Hln : ln (/ (2 * x)) <> 0) by (apply ln_neq_0; assumption).
  pose proof (exp_ineq1 _ Hln) as Hl.
  rewrite exp_ln in Hl by assumption.
  rewrite ln_Rinv, ln_mult in Hl, Hln by lra.
  assert (Hm : x * (- (ln 2 + ln x)) < x * (/ (2 * x) - 1))
    by (apply Rmult_lt_compat_l; lra).
  replace (x * (/ (2 * x) - 1)) with (/ 2 - x) in Hm by (field; lra).
  lra.
Qed.

Lemma binary_entropy_lt_1 (p : R) :
  0 < p < 1 -> p <> / 2 -> binary_entropy p < 1.
Proof.
  intros [H0 H1] Hne. unfold binary_entropy, log2.
  pose proof ln_2_pos as H2.
  pose proof (half_bound_strict p H0 Hne) as Bp.
  assert (Hq : 0 < 1 - p) by lra.
  pose proof (half_bound (1 - p) Hq) as Bq.
  replace (- p * (ln p / ln 2) - (1 - p) * (ln (1 - p) / ln 2))
    with ((- p * ln p - (1 - p) * ln (1 - p)) * / ln 2) by (field; lra).
  apply Rmult_lt_reg_r with (ln 2); [assumption|].
  rewrite Rmult_assoc, Rinv_l by lra. lra.
Qed.

Lemma occupancy_of_mean_hits self :
  calculate_pixel_occupancy self
  = 1 - exp (- calculate_flux_area_frame_duration_product self).
Proof. reflexivity. Qed.

(** X9.  The occupancy never exceeds the mean number of hits per frame:
    the probability of at least one hit is at most the expected number of
    hits. *)
Theorem occupancy_at_most_mean_hits self :
  calculate_pixel_occupancy self
  <= calculate_flux_area_frame_duration_product self.
Proof.
  rewrite occupancy_of_mean_hits.
  set (l := calculate_flux_area_frame_duration_product self).
  pose proof (exp_ineq1_le (- l)) as H. lra.
Qed.

(** X10.  The occupancy determines the mean number of hits per frame:
    [-ln(1 - occupancy)] gives it back, for every parameter set. *)
Theorem mean_hits_recovered_from_occupancy self :
  - ln (1 - calculate_pixel_occupancy self)
  = calculate_flux_area_frame_duration_product self.
Proof.
  rewrite occupancy_of_mean_hits.
  set (l := calculate_flux_area_frame_duration_product self).
  replace (1 - (1 - exp (- l))) with (exp (- l)) by ring.
  rewrite ln_exp. ring.
Qed.

(** X11.  The occupancy orders parameter sets exactly as the mean number
    of hits per frame does: one is strictly larger if and only if the
    other is. *)
Theorem occupancy_orders_as_mean_hits self other :
  calculate_flux_area_frame_duration_product self
  < calculate_flux_area_frame_duration_product other
  <-> calculate_pixel_occupancy self < calculate_pixel_occupancy other.
Proof.
  rewrite !occupancy_of_mean_hits.
  set (l := calculate_flux_area_frame_duration_product self).
  set (l' := calculate_flux_area_frame_duration_product other).
  split; intros H.
  - assert (exp (- l') < exp (- l)) by (apply exp_increasing; lra).
    lra.
  - assert (E : exp (- l') < exp (- l)) by lra.
    apply exp_lt_inv in E. lra.
Qed.

(** X12.  For a valid parameter set with a positive flux the occupancy is
    strictly between 0 and 1, the entropy rate density does not raise, is
    computed by the formula (a NumPy scalar) and is positive. *)
Theorem positive_flux_gives_positive_rate self :
  valid self -> 0 < flux self ->
  0 < calculate_pixel_occupancy self < 1
  /\ exists r : R,
       calculate_entropy_per_cm2_per_s self
       = Returned (NpFloat64 (A := Exact.arith) r)
       /\ r = binary_entropy (calculate_pixel_occupancy self)
              / pixel_area self / frame_duration self
       /\ 0 < r.
Proof.
  intros Hv Hpos. pose proof (occupancy_interior self Hv Hpos) as Hp.
  split; [exact Hp|].
  destruct Hv as (Hf & Ha & Hd).
  eexists. split; [|split; [reflexivity|]].
  - unfold calculate_entropy_per_cm2_per_s, calculate_entropy_per_cm2,
      calculate_pixel_entropy.
    rewrite entropy_of_occupancy_interior by exact Hp. reflexivity.
  - pose proof (binary_entropy_pos _ Hp) as Hh.
    apply Rdiv_lt_0_compat; [apply Rdiv_lt_0_compat|]; assumption.
Qed.

(** X13.  For a valid parameter set the entropy is one bit exactly when
    the mean number of hits per frame is [ln 2], that is when the
    occupancy is one half. *)
Theorem entropy_is_one_bit_iff self :
  valid self ->
  calculate_pixel_entropy self = NpFloat64 (A := Exact.arith) 1
  <-> calculate_flux_area_frame_duration_product self = ln 2.
Proof.
  intros Hv. pose proof (mean_hits_nonneg self Hv) as Hl.
  pose proof ln_2_pos as H2.
  unfold calculate_pixel_entropy.
  rewrite occupancy_of_mean_hits in *.
  set (l := calculate_flux_area_frame_duration_product self) in *.
  split.
  - intros He.
    destruct (Req_dec_T l 0) as [Z | NZ].
    + exfalso. rewrite Z, Ropp_0, exp_0 in He.
      replace (1 - 1) with 0 in He by ring.
      unfold entropy_of_occupancy in He. simpl in He.
      assert (E : Reqb 0 0 = true) by now apply Reqb_true.
      rewrite E in He. discriminate He.
    + assert (Hp : 0 < 1 - exp (- l) < 1).
      { pose proof (exp_pos (- l)).
        assert (exp (- l) < exp 0) by (apply exp_increasing; lra).
        rewrite exp_0 in *. lra. }
      rewrite entropy_of_occupancy_interior in He by exact Hp.
      injection He as He.
      destruct (Req_dec_T (1 - exp (- l)) (/ 2)) as [Half | NHalf].
      * assert (Hexp : exp (- l) = / 2) by lra.
        apply (f_equal ln) in Hexp.
        rewrite ln_exp, ln_Rinv in Hexp by lra. lra.
      * pose proof (binary_entropy_lt_1 _ Hp NHalf). lra.
  - intros E. rewrite E.
    rewrite exp_Ropp, exp_ln by lra.
    replace (1 - / 2) with (/ 2) by lra.
    rewrite entropy_of_occupancy_interior by lra.
    now rewrite binary_entropy_half.
Qed.

Lemma positive_flux_gives_positive_rate_witness :
  0 < calculate_pixel_occupancy
        (@Build_InputParameters Exact.arith 1 1 1) < 1.
Proof.
  apply (positive_flux_gives_positive_rate
           (@Build_InputParameters Exact.arith 1 1 1)).
  - unfold valid. simpl. lra.
  - simpl. lra.
Defined.

Lemma entropy_is_one_bit_iff_witness :
  calculate_pixel_entropy (@Build_InputParameters Exact.arith (ln 2) 1 1)
  = NpFloat64 (A := Exact.arith) 1.
Proof.
  apply (entropy_is_one_bit_iff
           (@Build_InputParameters Exact.arith (ln 2) 1 1)).
  - unfold valid. simpl. pose proof ln_2_pos. lra.
  - unfold calculate_flux_area_frame_duration_product. simpl. ring.
Defined.

End ExactFurther.

(** ** Further statements on binary64 *)

Section Binary64Further.

Import Binary64.
Local Open Scope float_scope.

Implicit Types self : InputParameters Binary64.arith.

Lemma SFeqb_refl_finite s m e :
  SFeqb (S754_finite s m e) (S754_finite s m e) = true.
Proof.
  unfold SFeqb, SFcompare.
  destruct s; rewrite Z.compare_refl, Pos.compare_cont_refl; reflexivity.
Qed.

Lemma is_nan_eq (x : float) : is_nan x = true -> x = nan.
Proof.
  unfold is_nan. rewrite eqb_spec. intros H.
  rewrite <- (SF2Prim_Prim2SF x).
  destruct (Prim2SF x) as [s | s | | s m e].
  - discriminate.
  - destruct s; discriminate.
  - reflexivity.
  - rewrite SFeqb_refl_finite in H. discriminate.
Qed.

Lemma mul_nan_l (y : float) : nan * y = nan.
Proof. apply Prim2SF_inj. rewrite mul_spec. reflexivity. Qed.

Lemma mul_nan_r (x : float) : x * nan = nan.
Proof.
  apply Prim2SF_inj. rewrite mul_spec.
  change (Prim2SF nan) with S754_nan.
  destruct (Prim2SF x); reflexivity.
Qed.

Lemma div_nan_l (y : float) : nan / y = nan.
Proof. apply Prim2SF_inj. rewrite div_spec. reflexivity. Qed.

Lemma nan_field_nan_mean self :
  is_nan (flux self) || is_nan (pixel_area self)
  || is_nan (frame_duration self) = true ->
  calculate_flux_area_frame_duration_product self = nan.
Proof.
  destruct self as [f a d].
  change (calculate_flux_area_frame_duration_product _) with (f * a * d).
  cbn [flux pixel_area frame_duration].
  rewrite !orb_true_iff. intros [[H | H] | H]; apply is_nan_eq in H; subst.
  - now rewrite !mul_nan_l.
  - now rewrite mul_nan_r, mul_nan_l.
  - now rewrite mul_nan_r.
Qed.

(** X14.  A NaN in any of the three fields is never rejected and never
    raises: the occupancy is NaN, the entropy is the NumPy scalar NaN, and
    the entropy rate density returns NaN, whatever the two divisors are,
    zero included. *)
Theorem nan_field_propagates self :
  is_nan (flux self) || is_nan (pixel_area self)
  || is_nan (frame_duration self) = true ->
  is_nan (calculate_pixel_occupancy self) = true
  /\ calculate_pixel_entropy self = NpFloat64 (A := arith) nan
  /\ calculate_entropy_per_cm2_per_s self
     = Returned (NpFloat64 (A := arith) nan).
Proof.
  intros H. pose proof (nan_field_nan_mean self H) as Hl.
  assert (Hp : calculate_pixel_occupancy self = nan).
  { unfold calculate_pixel_occupancy. rewrite Hl. reflexivity. }
  assert (He : calculate_pixel_entropy self = NpFloat64 (A := arith) nan).
  { unfold calculate_pixel_entropy. rewrite Hp. reflexivity. }
  split; [now rewrite Hp|]. split; [exact He|].
  unfold calculate_entropy_per_cm2_per_s, calculate_entropy_per_cm2.
  rewrite He. unfold truediv, bind.
  change (@fdiv arith nan (pixel_area self)) with (nan / pixel_area self).
  rewrite div_nan_l.
  change (@fdiv arith nan (frame_duration self))
    with (nan / frame_duration self).
  now rewrite div_nan_l.
Qed.

Lemma finite_cases (x : float) :
  is_finite x = true ->
  (exists s, Prim2SF x = S754_zero s)
  \/ (exists s m e, Prim2SF x = S754_finite s m e).
Proof.
  unfold is_finite, is_nan, is_infinity.
  rewrite !eqb_spec, abs_spec.
  destruct (Prim2SF x) as [s | s | | s m e]; simpl; eauto.
  - destruct s; discriminate.
  - discriminate.
Qed.

Lemma zero_SF (x : float) s : Prim2SF x = S754_zero s -> signed_zero x.
Proof.
  intros H. rewrite <- (SF2Prim_Prim2SF x), H.
  destruct s; [right | left]; reflexivity.
Qed.

Lemma signed_zero_SF (x : float) :
  signed_zero x -> exists s, Prim2SF x = S754_zero s.
Proof. intros [-> | ->]; eexists; reflexivity. Qed.

Lemma mul_signed_zero_r (x y : float) :
  is_finite x = true -> signed_zero y -> signed_zero (x * y).
Proof.
  intros Hx Hy. destruct (signed_zero_SF y Hy) as [sy Ey].
  destruct (finite_cases x Hx) as [[s Ex] | (s & m & e & Ex)];
    apply (zero_SF _ (xorb s sy)); rewrite mul_spec, Ex, Ey; reflexivity.
Qed.

Lemma mul_signed_zero_l (x y : float) :
  signed_zero x -> is_finite y = true -> signed_zero (x * y).
Proof.
  intros Hx Hy. destruct (signed_zero_SF x Hx) as [sx Ex].
  destruct (finite_cases y Hy) as [[s Ey] | (s & m & e & Ey)];
    apply (zero_SF _ (xorb sx s)); rewrite mul_spec, Ex, Ey; reflexivity.
Qed.

Lemma signed_zero_product_finite (x y : float) :
  signed_zero y -> is_finite (x * y) = true -> signed_zero (x * y).
Proof.
  intros Hy Hf. destruct (signed_zero_SF y Hy) as [sy Ey].
  destruct (finite_cases _ Hf) as [[s E] | (s & m & e & E)].
  - exact (zero_SF _ s E).
  - exfalso. rewrite mul_spec, Ey in E.
    destruct (Prim2SF x); discriminate E.
Qed.

Lemma exp_opp_signed_zero (l : float) : signed_zero l -> exp (- l) = 1.
Proof. intros [-> | ->]; vm_compute; reflexivity. Qed.

Lemma signed_zero_eqb (x : float) : signed_zero x -> (x =? 0) = true.
Proof. intros [-> | ->]; reflexivity. Qed.

Lemma truediv_python_zero (x y : float) :
  (y =? 0) = true ->
  truediv (A := arith) (PyFloat x) y = Raised ZeroDivisionError.
Proof.
  intros H. unfold truediv.
  change (@feqb arith y (@fzero arith)) with (y =? 0). now rewrite H.
Qed.

Lemma truediv_python_nonzero (x y : float) :
  (y =? 0) = false ->
  truediv (A := arith) (PyFloat x) y = Returned (PyFloat (x / y)).
Proof.
  intros H. unfold truediv.
  change (@feqb arith y (@fzero arith)) with (y =? 0). now rewrite H.
Qed.

(** X15.  With a finite mean number of hits per second and a finite frame
    duration, a pixel area or a frame duration that compares equal to zero
    makes the occupancy exactly [0.0] and the entropy rate density raise
    [ZeroDivisionError]. *)
Theorem zero_divisor_raises self :
  is_finite (calculate_flux_area_product self) = true ->
  is_finite (frame_duration self) = true ->
  (pixel_area self =? 0) || (frame_duration self =? 0) = true ->
  calculate_pixel_occupancy self = 0
  /\ calculate_entropy_per_cm2_per_s self = Raised ZeroDivisionError.
Proof.
  destruct self as [f a d].
  change (calculate_flux_area_product _) with (f * a).
  cbn [flux pixel_area frame_duration]. intros Hq Hd Hz.
  assert (Hl : signed_zero (f * a * d)).
  { apply orb_true_iff in Hz. destruct Hz as [Ha | Hd0].
    - apply mul_signed_zero_l; [|exact Hd].
      apply signed_zero_product_finite; [|exact Hq].
      exact (eqb_zero_cases a Ha).
    - apply mul_signed_zero_r; [exact Hq|]. exact (eqb_zero_cases d Hd0). }
  set (self := {| flux := f; pixel_area := a; frame_duration := d |}).
  assert (Hp : calculate_pixel_occupancy self = 0).
  { change (calculate_pixel_occupancy self) with (1 - exp (- (f * a * d))).
    rewrite (exp_opp_signed_zero _ Hl). reflexivity. }
  split; [exact Hp|].
  assert (He : calculate_pixel_entropy self = PyFloat (A := arith) 0).
  { unfold calculate_pixel_entropy. rewrite Hp. reflexivity. }
  unfold calculate_entropy_per_cm2_per_s, calculate_entropy_per_cm2.
  rewrite He. cbn [pixel_area frame_duration self].
  destruct (a =? 0) eqn:Ea.
  - now rewrite (truediv_python_zero 0 a Ea).
  - rewrite (truediv_python_nonzero 0 a Ea). cbn [bind].
    rewrite orb_false_l in Hz.
    exact (truediv_python_zero _ d Hz).
Qed.

Lemma SFltb_opp_finite m e mc ec :
  SFltb (S754_finite false mc ec) (S754_finite false m e) = true ->
  SFltb (S754_finite true m e) (S754_finite true mc ec) = true.
Proof.
  unfold SFltb, SFcompare.
  rewrite (Z.compare_antisym ec e), (Pos.compare_cont_antisym m mc Eq).
  simpl CompOpp.
  destruct (ec ?= e)%Z; simpl; destruct (Pos.compare_cont Eq mc m);
    intros H; try reflexivity; discriminate H.
Qed.

(** Beyond the underflow threshold of [exp], [exp (- l)] is zero. *)
Lemma exp_opp_large (l : float) :
  (- exp_underflow <? l) = true -> exp (- l) = 0.
Proof.
  intros H. rewrite ltb_spec, opp_spec in H.
  assert (Hn : is_nan (- l) = false
               /\ (exp_overflow <? - l) = false
               /\ (- l <? exp_underflow) = true).
  { unfold is_nan. rewrite !ltb_spec, eqb_spec, !opp_spec.
    let v := eval vm_compute in (Prim2SF exp_underflow) in
    change (Prim2SF exp_underflow) with v in *.
    let v := eval vm_compute in (Prim2SF exp_overflow) in
    change (Prim2SF exp_overflow) with v.
    destruct (Prim2SF l) as [s | s | | s m e]; simpl in H.
    - discriminate H.
    - destruct s; [discriminate H | repeat split].
    - discriminate H.
    - destruct s; [discriminate H|].
      simpl SFopp. rewrite SFeqb_refl_finite.
      split; [reflexivity|]. split; [reflexivity|].
      now apply SFltb_opp_finite. }
  destruct Hn as (Hnan & Hover & Hunder).
  unfold exp. now rewrite Hnan, Hover, Hunder.
Qed.

(** X16.  For a valid parameter set whose mean number of hits per frame
    exceeds 745.14 (where [exp] of its opposite underflows to zero), the
    occupancy is exactly [1.0], the entropy is the guard's [0.0] and the
    entropy rate density is [0.0]. *)
Theorem occupancy_saturates_beyond_underflow self :
  valid self = true ->
  (0x1.74910d52d3051p+9 <? calculate_flux_area_frame_duration_product self)
  = true ->
  calculate_pixel_occupancy self = 1
  /\ calculate_pixel_entropy self = PyFloat (A := arith) 0
  /\ calculate_entropy_per_cm2_per_s self
     = Returned (PyFloat (A := arith) 0).
Proof.
  intros Hv Hl. destruct (valid_fields self Hv) as [[Fa Pa] [Fd Pd]].
  assert (Hp : calculate_pixel_occupancy self = 1).
  { unfold calculate_pixel_occupancy.
    change (@np_exp arith (@fneg arith ?x)) with (exp (- x)).
    rewrite (exp_opp_large _ Hl). reflexivity. }
  assert (He : calculate_pixel_entropy self = PyFloat (A := arith) 0).
  { unfold calculate_pixel_entropy. rewrite Hp. reflexivity. }
  repeat split; try assumption.
  unfold calculate_entropy_per_cm2_per_s, calculate_entropy_per_cm2.
  rewrite He, (truediv_zero_positive _ Fa Pa). cbn [bind].
  exact (truediv_zero_positive _ Fd Pd).
Qed.

Lemma nan_field_propagates_witness :
  calculate_entropy_per_cm2_per_s
    (@Build_InputParameters arith nan 1e-6 0)
  = Returned (NpFloat64 (A := arith) nan).
Proof.
  apply (nan_field_propagates (@Build_InputParameters arith nan 1e-6 0)).
  reflexivity.
Defined.

Lemma zero_divisor_raises_witness :
  calculate_entropy_per_cm2_per_s
    (@Build_InputParameters arith 1e8 1e-6 0)
  = Raised ZeroDivisionError.
Proof.
  apply (zero_divisor_raises (@Build_InputParameters arith 1e8 1e-6 0));
    reflexivity.
Defined.

Lemma occupancy_saturates_beyond_underflow_witness :
  calculate_pixel_occupancy (@Build_InputParameters arith 1e8 1e-6 100) = 1.
Proof.
  apply (occupancy_saturates_beyond_underflow
           (@Build_InputParameters arith 1e8 1e-6 100));
    vm_compute; reflexivity.
Defined.

(** *** Witnesses of the statements on sweeps and plots *)

Lemma notebook_flux_study :
  In (flux_sweep (A := arith), with_flux (A := arith),
      plot_entropy_vs_flux (A := arith)) studies.
Proof. left. reflexivity. Qed.

Lemma notebook_flux_sweep_returns (values : list float) :
  exists final results,
    flux_sweep (A := arith) (@Build_InputParameters arith 1e8 1e-6 1e-7) values
    = Returned (final, results).
Proof.
  destruct (sweep_loop (A := arith) set_flux with_flux
              (fun _ _ => Logic.eq_refl) (fun _ _ _ => Logic.eq_refl)
              values
              (@Build_InputParameters arith 1e8 1e-6 1e-7)
              (@Build_InputParameters arith 1e8 1e-6 1e-7) [])
    as [results [Hrun _]].
  - intros v _. apply rate_returns; reflexivity.
  - reflexivity.
  - eauto.
Qed.

Lemma sweep_raises_iff_a_value_raises_witness :
  is_raised (flux_sweep (A := arith) (@Build_InputParameters arith 1e8 0 1e-7) [0; 1e6])
  = true.
Proof.
  apply (sweep_raises_iff_a_value_raises _ _ _
           (@Build_InputParameters arith 1e8 0 1e-7) [0; 1e6]
           notebook_flux_study).
  exists 0. split; [left; reflexivity | reflexivity].
Defined.

Lemma sweep_of_concatenation_witness :
  exists f1 r1 f2 r2 final,
    flux_sweep (A := arith) (@Build_InputParameters arith 1e8 1e-6 1e-7) [1e6]
    = Returned (f1, r1)
    /\ flux_sweep (A := arith) (@Build_InputParameters arith 1e8 1e-6 1e-7) [1e7; 1e8]
       = Returned (f2, r2)
    /\ flux_sweep (A := arith) (@Build_InputParameters arith 1e8 1e-6 1e-7)
                  ([1e6] ++ [1e7; 1e8])
       = Returned (final, r1 ++ r2).
Proof.
  destruct (notebook_flux_sweep_returns [1e6]) as (f1 & r1 & H1).
  destruct (notebook_flux_sweep_returns [1e7; 1e8]) as (f2 & r2 & H2).
  destruct (sweep_of_concatenation _ _ _ _ _ _ _ _ _ _
              notebook_flux_study H1 H2) as [final Hf].
  exists f1, r1, f2, r2, final. auto.
Defined.

Lemma sweep_leaves_last_value_witness :
  exists final results,
    flux_sweep (A := arith) (@Build_InputParameters arith 1e8 1e-6 1e-7) [1e6; 1e7]
    = Returned (final, results)
    /\ final = @Build_InputParameters arith 1e7 1e-6 1e-7.
Proof.
  destruct (notebook_flux_sweep_returns [1e6; 1e7]) as (final & results & H).
  exists final, results. split; [exact H|].
  destruct (sweep_leaves_last_value _ _ _ _ _ _ _ notebook_flux_study H)
    as [_ Hlast].
  rewrite (Hlast 0) by discriminate. reflexivity.
Defined.

Lemma sweep_forgets_initial_value_witness :
  flux_sweep (A := arith) (@Build_InputParameters arith 5 1e-6 1e-7) [1e6; 1e7]
  = flux_sweep (A := arith) (@Build_InputParameters arith 1e8 1e-6 1e-7) [1e6; 1e7].
Proof.
  apply (sweep_forgets_initial_value _ _ _
           (@Build_InputParameters arith 1e8 1e-6 1e-7) 5 [1e6; 1e7]
           notebook_flux_study).
  discriminate.
Defined.

Lemma plot_raises_iff_no_results_witness :
  plot_entropy_vs_flux (A := arith) [] = ValueError.
Proof.
  apply (plot_raises_iff_no_results _ _ _ [] notebook_flux_study).
  reflexivity.
Defined.

Lemma study_plots_the_swept_values_witness :
  exists final results calls,
    flux_sweep (A := arith) (@Build_InputParameters arith 1e8 1e-6 1e-7) [1e6; 1e7; 1e8]
    = Returned (final, results)
    /\ plot_entropy_vs_flux results = Shown calls
    /\ plotted calls = [([1e6; 1e7; 1e8], map snd results)].
Proof.
  destruct (notebook_flux_sweep_returns [1e6; 1e7; 1e8])
    as (final & results & H).
  assert (Hne : [1e6; 1e7; 1e8] <> @nil float) by discriminate.
  destruct (study_plots_the_swept_values _ _ _ _ _ _ _
              notebook_flux_study Hne H)
    as (calls & Hplot & Hdata & _).
  exists final, results, calls. auto.
Defined.

End Binary64Further.
